(** * Sender: the HTTP request wrapper of src/feature/request/RequestHandler.py

    A shallow embedding of [RequestHandler] (the verb methods [__get__],
    [__post__], [__delete__], [set_headers], [set_timeout]) and of its
    subclass [RequestDataBase] (the fixed news endpoints), followed by the
    properties of the specification that can be stated about them and by
    further properties read off the code (X1 to X11).

    Python exceptions are an error monad, the outgoing [requests] calls are
    recorded in a call log, and the instance attributes are an explicit
    record that [set_headers] and [set_timeout] rebuild. *)

From Stdlib Require Import ZArith String Ascii List DecimalString.
From stdpp Require Import gmap strings.

Set Warnings "-register-all".

Local Open Scope Z_scope.
Local Open Scope string_scope.

#[local] Arguments String.append !s1 s2 : simpl nomatch.

(** ** Python values *)

(** Field values of the parameter models (path, query and body records are
    flat, typed records of scalars). *)
Inductive atom :=
| ANone
| ABool (b : bool)
| AInt (z : Z)
| AStr (s : string).

(** What [response.json()], [response.text] and a validated response model
    can be. *)
Inductive pyval :=
| PyNone
| PyBool (b : bool)
| PyInt (z : Z)
| PyStr (s : string)
| PyList (l : list pyval)
| PyDict (d : list (string * pyval))
| PyModel (cls : string) (fields : list (string * pyval)).

(** [str(v)] on a scalar, which is also [format(v, '')]. *)
Definition py_str (v : atom) : string :=
  match v with
  | ANone => "None"
  | ABool true => "True"
  | ABool false => "False"
  | AInt z => NilZero.string_of_int (Z.to_int z)
  | AStr s => s
  end.

(** ** Exceptions *)

(** The subclasses of [requests.exceptions.RequestException] that matter
    here. [JSONDecodeError] is the one [Response.json()] raises (requests
    2.27 and later, where it derives from [RequestException]). *)
Inductive request_exception :=
| ConnectionError
| ReadTimeout
| HTTPError (status : Z)
| JSONDecodeError
| OtherRequestException (name : string).

Inductive exn :=
| RequestException (k : request_exception)
| ValidationError
| KeyError (key : string)
| IndexError
| ValueError (msg : string)
| UnicodeEncodeError.

Inductive outcome (A : Type) :=
| Return (a : A)
| Raise (e : exn).
Arguments Return {A} a.
Arguments Raise {A} e.

Definition returns {A} (o : outcome A) : Prop := exists a, o = Return a.

(** ** The transport: what [requests.get/post/delete] is called with and
    what it hands back *)

Inductive http_verb := GET | POST | DELETE.

Record request := {
  req_verb : http_verb;
  req_url : string;
  req_headers : gmap string string;
  req_params : option (gmap string atom);
  req_json : option (gmap string atom);
  req_timeout : Z
}.

(** A [requests.Response]: [content_type] is
    [response.headers.get('Content-Type')], [json_body] is what
    [response.json()] decodes the body to ([None] when the body is not
    JSON). *)
Record response := {
  status_code : Z;
  content_type : option string;
  text : string;
  json_body : option pyval
}.

(** What a call of [requests.get/post/delete] comes to: a response, a
    [RequestException], or an exception of any class whatever, since the
    library also raises outside its own hierarchy ([ValueError] for a
    timeout that is not positive, [UnicodeEncodeError] for a header value
    outside latin-1). *)
Inductive transport_result :=
| Responded (r : response)
| Failed (e : request_exception)
| Raised (e : exn).

(** ** Computations: a call log and an outcome *)

Definition py (A : Type) : Type := list request * outcome A.

Definition calls {A} (m : py A) : list request := fst m.
Definition result {A} (m : py A) : outcome A := snd m.

Definition py_ret {A} (a : A) : py A := ([], Return a).
Definition py_raise {A} (e : exn) : py A := ([], Raise e).
Definition py_lift {A} (o : outcome A) : py A := ([], o).

Definition py_bind {A B} (m : py A) (k : A -> py B) : py B :=
  match m with
  | (l, Return a) => let (l', r) := k a in ((l ++ l')%list, r)
  | (l, Raise e) => (l, Raise e)
  end.

Notation "x <- m ;; k" := (py_bind m (fun x => k))
  (at level 100, m at next level, right associativity).

(** [try: body except ...: handler]. [handler e] is [None] when no except
    clause matches [e], which then propagates. *)
Definition try_except {A} (body : py A) (handler : exn -> option (py A)) : py A :=
  match body with
  | (l, Return a) => (l, Return a)
  | (l, Raise e) =>
      match handler e with
      | Some (l', r) => ((l ++ l')%list, r)
      | None => (l, Raise e)
      end
  end.

Definition outcome_bind {A B} (o : outcome A) (k : A -> outcome B) : outcome B :=
  match o with
  | Return a => k a
  | Raise e => Raise e
  end.

(** ** [str.format] called with keyword arguments only *)

(** Every character is one of the ASCII digits. *)
Definition all_digits (s : string) : bool :=
  forallb (fun c => ((48 <=? Z.of_nat (nat_of_ascii c)) && (Z.of_nat (nat_of_ascii c) <=? 57))%Z)
          (list_ascii_of_string s).

(** The largest index [str.format] reads from a field name ([PY_SSIZE_T_MAX]
    of a 64-bit build). *)
Definition ssize_t_max : Z := 2 ^ 63 - 1.

Definition digit_value (c : ascii) : option Z :=
  let n := Z.of_nat (nat_of_ascii c) in
  if ((48 <=? n) && (n <=? 57))%Z then Some (n - 48)%Z else None.

(** The digits of a field name read from the left, as [str.format] reads
    them: [None] at the first character that is not a digit, an error as
    soon as the number read so far leaves the index range. *)
Fixpoint get_integer (acc : Z) (s : string) : option (outcome Z) :=
  match s with
  | EmptyString => Some (Return acc)
  | String c rest =>
      match digit_value c with
      | None => None
      | Some d =>
          if (acc >? (ssize_t_max - d) / 10)%Z
          then Some (Raise (ValueError "Too many decimal digits in format string"))
          else get_integer (acc * 10 + d)%Z rest
      end
  end.

(** The index of a positional field: an empty name is numbered
    automatically, from 0, and a name of digits is its own index. [None] for
    a name that is a keyword. *)
Definition positional_index (name : string) : option (outcome Z) :=
  get_integer 0 name.

(** A replacement field that is a bare name: with no positional arguments
    every index is out of range, and any name that is not an index is a key
    of the keyword arguments. *)
Definition get_field (kwargs : gmap string atom) (name : string) : outcome string :=
  match positional_index name with
  | Some (Return _) => Raise IndexError
  | Some (Raise e) => Raise e
  | None =>
      match kwargs !! name with
      | Some v => Return (py_str v)
      | None => Raise (KeyError name)
      end
  end.

(** A byte outside ASCII: part of a character whose being a decimal digit
    only the Unicode tables tell. *)
Definition non_ascii (c : ascii) : bool :=
  let (_, _, _, _, _, _, _, b7) := c in b7.

Definition starts_compound (c : ascii) : bool :=
  (c =? "!")%char || (c =? ":")%char || (c =? ".")%char || (c =? "[")%char
  || non_ascii c.

Section Format.

(** Replacement fields with a conversion ([!r]), a format spec ([:>5]), an
    attribute ([.a]) or an index ([[0]]), and field names with a character
    outside ASCII, are not interpreted here: from the first such field on,
    the rest of the formatting is this function, given the field name read
    so far, the text that follows and the keyword arguments. *)
Variable format_compound : string -> string -> gmap string atom -> outcome string.

(** [field] is [Some name] while inside the braces of a replacement field
    whose name so far is [name]. *)
Fixpoint format_from (kwargs : gmap string atom) (s : string) (field : option string)
  : outcome string :=
  match s, field with
  | EmptyString, None => Return ""
  | EmptyString, Some _ => Raise (ValueError "expected '}' before end of string")
  | String c rest, Some name =>
      if (c =? "}")%char then
        outcome_bind (get_field kwargs name) (fun v =>
        outcome_bind (format_from kwargs rest None) (fun r =>
        Return (v ++ r)))
      else if (c =? "{")%char then
        Raise (ValueError "unexpected '{' in field name")
      else if starts_compound c then
        format_compound name s kwargs
      else format_from kwargs rest (Some (name ++ String c ""))
  | String c rest, None =>
      if (c =? "{")%char then
        match rest with
        | EmptyString => Raise (ValueError "Single '{' encountered in format string")
        | String c' rest' =>
            if (c' =? "{")%char then
              outcome_bind (format_from kwargs rest' None) (fun r => Return (String "{" r))
            else format_from kwargs rest (Some "")
        end
      else if (c =? "}")%char then
        match rest with
        | EmptyString => Raise (ValueError "Single '}' encountered in format string")
        | String c' rest' =>
            if (c' =? "}")%char then
              outcome_bind (format_from kwargs rest' None) (fun r => Return (String "}" r))
            else Raise (ValueError "Single '}' encountered in format string")
        end
      else outcome_bind (format_from kwargs rest None) (fun r => Return (String c r))
  end.

(** [template.format] applied to the unpacked dictionary [kwargs] *)
Definition format (template : string) (kwargs : gmap string atom) : outcome string :=
  format_from kwargs template None.

End Format.

(** ** pydantic models *)

(** An instance of a [BaseModel] subclass used as a parameter object (path,
    query or body): all that the handler asks of it is [model_dump()]. Such
    an instance is truthy, so [if path_params:] is a test against [None]. *)
Record BaseModel := { model_dump : gmap string atom }.

(** [.dict()] is the older spelling of [.model_dump()]. *)
Definition dict (m : BaseModel) : gmap string atom := model_dump m.

(** A response model class: [model_validate obj] is [Some v] when [obj]
    validates to the instance [v] and [None] when pydantic raises
    [ValidationError]. *)
Record ResponseModel := { model_validate : pyval -> option pyval }.

(** [.parse_obj(obj)] is the older spelling of [.model_validate(obj)]. *)
Definition parse_obj (m : ResponseModel) (obj : pyval) : option pyval :=
  model_validate m obj.

Definition or_ValidationError (o : option pyval) : py pyval :=
  match o with
  | Some v => py_ret v
  | None => py_raise ValidationError
  end.

(** ** class RequestHandler *)

Record RequestHandler := {
  base_url : string;
  headers : gmap string string;
  timeout : Z
}.

Definition __init__ (base_url : string) (headers : option (gmap string string))
    (timeout : Z) : RequestHandler :=
  {| base_url := base_url;
     headers := match headers with Some h => h | None => ∅ end;
     timeout := timeout |}.

(** [RequestHandler()] with every default. *)
Definition default_handler : RequestHandler :=
  __init__ "http://0.0.0.0:8000/" None 10.

(** The statuses [requests] reports as client or server errors. *)
Definition error_status (status : Z) : bool :=
  ((400 <=? status) && (status <? 600))%Z.

(** [Response.raise_for_status()]: [HTTPError] on a 4xx or 5xx status,
    nothing otherwise. *)
Definition raise_for_status (r : response) : py unit :=
  if error_status (status_code r)
  then py_raise (RequestException (HTTPError (status_code r)))
  else py_ret tt.

(** [Response.json()] *)
Definition response_json (r : response) : py pyval :=
  match json_body r with
  | Some v => py_ret v
  | None => py_raise (RequestException JSONDecodeError)
  end.

(** [response.json() if response.headers.get('Content-Type') ==
    'application/json' else response.text] *)
Definition response_data (r : response) : py pyval :=
  if bool_decide (content_type r = Some "application/json")
  then response_json r
  else py_ret (PyStr (text r)).

(** The two except clauses of [__get__] and [__post__], and the single one
    of [__delete__]. *)
Definition except_request_or_validation {A} (sentinel : A) (e : exn) : option (py A) :=
  match e with
  | RequestException _ => Some (py_ret sentinel)
  | ValidationError => Some (py_ret sentinel)
  | _ => None
  end.

Definition except_request {A} (sentinel : A) (e : exn) : option (py A) :=
  match e with
  | RequestException _ => Some (py_ret sentinel)
  | _ => None
  end.

Section Handler.

Variable format_compound : string -> string -> gmap string atom -> outcome string.

(** [requests] and the network behind it: what each outgoing call comes
    to. *)
Variable transport : request -> transport_result.

Definition send (req : request) : py response :=
  ([req], match transport req with
          | Responded r => Return r
          | Failed e => Raise (RequestException e)
          | Raised e => Raise e
          end).

(** [endpoint.format] on the dumped path parameters, when there are any *)
Definition resolve (endpoint : string) (path_params : option BaseModel) : py string :=
  match path_params with
  | Some p => py_lift (format format_compound endpoint (model_dump p))
  | None => py_ret endpoint
  end.

Definition __get__ (self : RequestHandler) (endpoint : string)
    (path_params query_params : option BaseModel)
    (response_model : option ResponseModel) : py (pyval * pyval) :=
  endpoint <- resolve endpoint path_params ;;
  let url := base_url self ++ "/" ++ endpoint in
  try_except
    (let query_params_dict := option_map dict query_params in
     response <- send {| req_verb := GET; req_url := url;
                         req_headers := headers self;
                         req_params := query_params_dict;
                         req_json := None;
                         req_timeout := timeout self |} ;;
     _ <- raise_for_status response ;;
     data <- response_data response ;;
     value <- match response_model with
              | Some m => or_ValidationError (parse_obj m data)
              | None => py_ret data
              end ;;
     py_ret (PyInt (status_code response), value))
    (except_request_or_validation (PyNone, PyNone)).

Definition __post__ (self : RequestHandler) (endpoint : string)
    (data : option BaseModel) (response_model : option ResponseModel) : py pyval :=
  let url := base_url self ++ "/" ++ endpoint in
  try_except
    (let data_dict := option_map model_dump data in
     response <- send {| req_verb := POST; req_url := url;
                         req_headers := headers self;
                         req_params := None;
                         req_json := data_dict;
                         req_timeout := timeout self |} ;;
     _ <- raise_for_status response ;;
     data <- response_data response ;;
     match response_model with
     | Some m => or_ValidationError (model_validate m data)
     | None => py_ret data
     end)
    (except_request_or_validation PyNone).

Definition __delete__ (self : RequestHandler) (endpoint : string)
    (path_params query_params : option BaseModel) : py pyval :=
  endpoint <- resolve endpoint path_params ;;
  let url := base_url self ++ "/" ++ endpoint in
  try_except
    (let query_params_dict := option_map dict query_params in
     response <- send {| req_verb := DELETE; req_url := url;
                         req_headers := headers self;
                         req_params := query_params_dict;
                         req_json := None;
                         req_timeout := timeout self |} ;;
     _ <- raise_for_status response ;;
     data <- response_data response ;;
     py_ret data)
    (except_request PyNone).

End Handler.

(** [self.headers.update(headers)]: the keys of the argument win. *)
Definition set_headers (self : RequestHandler) (h : gmap string string) : RequestHandler :=
  {| base_url := base_url self;
     headers := h ∪ headers self;
     timeout := timeout self |}.

Definition set_timeout (self : RequestHandler) (t : Z) : RequestHandler :=
  {| base_url := base_url self;
     headers := headers self;
     timeout := t |}.

(** ** class RequestDataBase(RequestHandler) *)

(** Modelled from the spec: the path-parameter schema [DetailBySeed] of
    src/feature/request/schemas.py, the record with the one field [seed], a
    string. *)
Definition DetailBySeed (seed : string) : BaseModel :=
  {| model_dump := {[ "seed" := AStr seed ]} |}.

(** Modelled from the spec: the path-parameter schema [DeletePostByQueue] of
    src/feature/request/schemas.py, the record with the fields [channel], a
    string, and [id_post], an integer. *)
Definition DeletePostByQueue (channel : string) (id_post : Z) : BaseModel :=
  {| model_dump := <[ "channel" := AStr channel ]> {[ "id_post" := AInt id_post ]} |}.

(** [tuple[1]] *)
Definition item1 {A B} (p : A * B) : B := snd p.

Section DataBase.

Variable format_compound : string -> string -> gmap string atom -> outcome string.
Variable transport : request -> transport_result.

(** The response schemas of src/feature/request/schemas.py. *)
Variables PostSendNewsList PostQueueList DetailBySeedResponse : ResponseModel.

Definition __get_last_send_news__ (self : RequestHandler) : py (pyval * pyval) :=
  __get__ format_compound transport self "send-news/get-news/by/hours"
          None None (Some PostSendNewsList).

Definition __get_last_queue__ (self : RequestHandler) : py (pyval * pyval) :=
  __get__ format_compound transport self "queue/get-news/by/hours"
          None None (Some PostQueueList).

Definition __get_detail_by_seed__ (self : RequestHandler) (seed : string)
  : py (pyval * pyval) :=
  let seed_req := DetailBySeed seed in
  __get__ format_compound transport self "all-news/detail-by-seed/{seed}"
          (Some seed_req) None (Some DetailBySeedResponse).

Definition get_detail_by_seed (self : RequestHandler) (seed : string) : py pyval :=
  r <- __get_detail_by_seed__ self seed ;;
  py_ret (item1 r).

Definition get_last_news_queue (self : RequestHandler) : py pyval :=
  queue <- __get_last_queue__ self ;;
  py_ret (item1 queue).

Definition get_last_news_send (self : RequestHandler) : py pyval :=
  queue <- __get_last_send_news__ self ;;
  py_ret (item1 queue).

Definition delete_news_by_queue (self : RequestHandler) (channel : string) (id_post : Z)
  : py pyval :=
  let path_params := DeletePostByQueue channel id_post in
  __delete__ format_compound transport self "queue/delete-news/{channel}/{id_post}"
             (Some path_params) None.

End DataBase.

(** ** Vocabulary of the statements *)

(** The call a verb method hands to [requests] once the endpoint is
    resolved. *)
Definition outgoing (verb : http_verb) (self : RequestHandler) (endpoint : string)
    (params json : option (gmap string atom)) : request :=
  {| req_verb := verb;
     req_url := base_url self ++ "/" ++ endpoint;
     req_headers := headers self;
     req_params := params;
     req_json := json;
     req_timeout := timeout self |}.

Definition is_2xx (status : Z) : Prop := (200 <= status < 300)%Z.
Definition is_4xx_5xx (status : Z) : Prop := (400 <= status < 600)%Z.

(** The transport call failed, or answered with an error status. *)
Definition transport_error (t : transport_result) : Prop :=
  match t with
  | Failed _ => True
  | Responded r => is_4xx_5xx (status_code r)
  | Raised (RequestException _) => True
  | Raised _ => False
  end.

(** The data a response yields: the decoded JSON under the JSON content
    type, the raw text otherwise; [None] when the JSON decoding fails. *)
Definition body_of (r : response) : option pyval :=
  if bool_decide (content_type r = Some "application/json")
  then json_body r
  else Some (PyStr (text r)).

(** The data after the optional response model: [None] when it is rejected. *)
Definition validated (rm : option ResponseModel) (d : pyval) : option pyval :=
  match rm with
  | Some m => model_validate m d
  | None => Some d
  end.

(** The status and value of a call that went through, [None] for a call
    that failed: the transport raised, the status is an error status, the
    body does not decode, or the response model rejects it. *)
Definition payload (rm : option ResponseModel) (t : transport_result) : option (Z * pyval) :=
  match t with
  | Failed _ => None
  | Raised _ => None
  | Responded r =>
      if error_status (status_code r) then None
      else match body_of r with
           | Some d =>
               match validated rm d with
               | Some v => Some (status_code r, v)
               | None => None
               end
           | None => None
           end
  end.




(** The classes the except clauses of [__get__] and [__post__] name, and
    the one [__delete__] names. *)
Definition caught_by_get_post (e : exn) : bool :=
  match e with
  | RequestException _ | ValidationError => true
  | _ => false
  end.

Definition caught_by_delete (e : exn) : bool :=
  match e with
  | RequestException _ => true
  | _ => false
  end.

(** What each verb makes of the transport's answer. *)
Definition get_result (rm : option ResponseModel) (t : transport_result)
  : outcome (pyval * pyval) :=
  match t with
  | Raised e => if caught_by_get_post e then Return (PyNone, PyNone) else Raise e
  | _ => match payload rm t with
         | Some (s, v) => Return (PyInt s, v)
         | None => Return (PyNone, PyNone)
         end
  end.

Definition post_result (rm : option ResponseModel) (t : transport_result) : outcome pyval :=
  match t with
  | Raised e => if caught_by_get_post e then Return PyNone else Raise e
  | _ => match payload rm t with
         | Some (_, v) => Return v
         | None => Return PyNone
         end
  end.

Definition delete_result (t : transport_result) : outcome pyval :=
  match t with
  | Raised e => if caught_by_delete e then Return PyNone else Raise e
  | _ => match payload None t with
         | Some (_, v) => Return v
         | None => Return PyNone
         end
  end.


(** [requests] refuses a timeout that is not positive: it raises
    [ValueError] instead of sending. *)
Definition checks_timeout (tr : request -> transport_result) : request -> transport_result :=
  fun req =>
    if (req_timeout req <=? 0)%Z
    then Raised (ValueError "timeout cannot be set to a value less than or equal to 0")
    else tr req.

(** A formatter for compound replacement fields, for templates that have
    none. *)
Definition no_compound (name rest : string) (kwargs : gmap string atom) : outcome string :=
  Raise (ValueError "compound replacement field").

Definition respond_with (r : response) : request -> transport_result :=
  fun _ => Responded r.

Definition not_modified : response :=
  {| status_code := 304; content_type := None; text := ""; json_body := None |}.


Definition ok_json (v : pyval) (body : string) : response :=
  {| status_code := 200; content_type := Some "application/json";
     text := body; json_body := Some v |}.

Definition not_found : response :=
  {| status_code := 404; content_type := Some "application/json";
     text := "{}"; json_body := Some (PyDict []) |}.

(** A response model that accepts dictionaries only. *)
Definition dict_model : ResponseModel :=
  {| model_validate := fun obj =>
       match obj with
       | PyDict d => Some (PyModel "Model" d)
       | _ => None
       end |}.

(** ** Endpoint templates made of text and bare placeholders *)

Definition is_brace (c : ascii) : bool := ((c =? "{") || (c =? "}"))%char.

(** Text with no brace in it: no placeholder and no escape. *)
Fixpoint brace_free (s : string) : bool :=
  match s with
  | EmptyString => true
  | String c rest => negb (is_brace c) && brace_free rest
  end.

(** A placeholder name that is a bare key: no brace, none of the
    characters that open a conversion, a format spec, an attribute or an
    index, and no character outside ASCII. *)
Fixpoint bare_name (s : string) : bool :=
  match s with
  | EmptyString => true
  | String c rest => negb (is_brace c) && negb (starts_compound c) && bare_name rest
  end.

Inductive segment :=
| Lit (s : string)
| Field (name : string).

(** A numeric placeholder of more than 18 digits is left out: beyond the
    index range [str.format] rejects a number as too long before looking
    anything up. *)
Definition segment_ok (seg : segment) : bool :=
  match seg with
  | Lit s => brace_free s
  | Field name =>
      bare_name name && (negb (all_digits name) || (String.length name <=? 18)%nat)
  end.

(** The template string a list of segments stands for. *)
Fixpoint template_of (segs : list segment) : string :=
  match segs with
  | [] => ""
  | Lit s :: segs => s ++ template_of segs
  | Field name :: segs => String "{" (name ++ String "}" (template_of segs))
  end.

(** Left-to-right substitution of the placeholders by the [str] of the
    fields, stopping at the first placeholder that cannot be looked up. *)
Fixpoint substitute (kwargs : gmap string atom) (segs : list segment) : outcome string :=
  match segs with
  | [] => Return ""
  | Lit s :: segs =>
      outcome_bind (substitute kwargs segs) (fun r => Return (s ++ r))
  | Field name :: segs =>
      outcome_bind (get_field kwargs name) (fun v =>
      outcome_bind (substitute kwargs segs) (fun r =>
      Return (v ++ r)))
  end.

(** ** Basic facts about the verbs *)

Section VerbFacts.

Variable format_compound : string -> string -> gmap string atom -> outcome string.
Variable transport : request -> transport_result.

Lemma resolve_calls endpoint path_params :
  calls (resolve format_compound endpoint path_params) = [].
Proof. destruct path_params; reflexivity. Qed.

Lemma resolve_eta endpoint path_params :
  resolve format_compound endpoint path_params
  = ([], result (resolve format_compound endpoint path_params)).
Proof. destruct path_params; reflexivity. Qed.

Lemma error_status_spec status :
  error_status status = true <-> is_4xx_5xx status.
Proof.
  unfold error_status, is_4xx_5xx.
  rewrite andb_true_iff, Z.leb_le, Z.ltb_lt. tauto.
Qed.

Lemma error_status_false status :
  error_status status = false <-> ~ is_4xx_5xx status.
Proof.
  rewrite <- error_status_spec. destruct (error_status status); split; congruence.
Qed.

Lemma is_2xx_not_error status : is_2xx status -> ~ is_4xx_5xx status.
Proof. unfold is_2xx, is_4xx_5xx. lia. Qed.

(** Once the endpoint is resolved, [__get__] is one call followed by the
    handling of its answer. *)
Lemma get_resolved self endpoint ep pp qp rm :
  result (resolve format_compound endpoint pp) = Return ep ->
  __get__ format_compound transport self endpoint pp qp rm
  = try_except
      (response <- send transport (outgoing GET self ep (option_map dict qp) None) ;;
       _ <- raise_for_status response ;;
       data <- response_data response ;;
       value <- match rm with
                | Some m => or_ValidationError (parse_obj m data)
                | None => py_ret data
                end ;;
       py_ret (PyInt (status_code response), value))
      (except_request_or_validation (PyNone, PyNone)).
Proof.
  intros H. unfold __get__. rewrite resolve_eta, H. cbn [py_bind].
  match goal with
  | |- (let (_, _) := ?t in _) = ?u => change u with t; destruct t
  end.
  reflexivity.
Qed.

Lemma delete_resolved self endpoint ep pp qp :
  result (resolve format_compound endpoint pp) = Return ep ->
  __delete__ format_compound transport self endpoint pp qp
  = try_except
      (response <- send transport (outgoing DELETE self ep (option_map dict qp) None) ;;
       _ <- raise_for_status response ;;
       data <- response_data response ;;
       py_ret data)
      (except_request PyNone).
Proof.
  intros H. unfold __delete__. rewrite resolve_eta, H. cbn [py_bind].
  match goal with
  | |- (let (_, _) := ?t in _) = ?u => change u with t; destruct t
  end.
  reflexivity.
Qed.

Lemma get_unresolved self endpoint e pp qp rm :
  result (resolve format_compound endpoint pp) = Raise e ->
  __get__ format_compound transport self endpoint pp qp rm = ([], Raise e).
Proof. intros H. unfold __get__. now rewrite resolve_eta, H. Qed.

Lemma delete_unresolved self endpoint e pp qp :
  result (resolve format_compound endpoint pp) = Raise e ->
  __delete__ format_compound transport self endpoint pp qp = ([], Raise e).
Proof. intros H. unfold __delete__. now rewrite resolve_eta, H. Qed.

Lemma response_data_body r :
  response_data r
  = match body_of r with
    | Some d => py_ret d
    | None => py_raise (RequestException JSONDecodeError)
    end.
Proof.
  unfold response_data, body_of, response_json.
  destruct (bool_decide _); [destruct (json_body r)|]; reflexivity.
Qed.

(** The answer of the transport decides the rest of a GET. *)
Lemma get_after_call req rm :
  try_except
    (response <- send transport req ;;
     _ <- raise_for_status response ;;
     data <- response_data response ;;
     value <- match rm with
              | Some m => or_ValidationError (parse_obj m data)
              | None => py_ret data
              end ;;
     py_ret (PyInt (status_code response), value))
    (except_request_or_validation (PyNone, PyNone))
  = ([req], get_result rm (transport req)).
Proof.
  unfold send, get_result, payload.
  destruct (transport req) as [r|e|e]; [|reflexivity|now destruct e].
  cbn [py_bind]. unfold raise_for_status.
  destruct (error_status (status_code r)); [reflexivity|].
  cbn [py_ret py_bind]. rewrite response_data_body.
  destruct (body_of r) as [d|]; [|reflexivity].
  cbn [py_ret py_bind]. destruct rm as [m|]; cbn [validated]; [|reflexivity].
  unfold parse_obj. destruct (model_validate m d); reflexivity.
Qed.

Lemma post_after_call req rm :
  try_except
    (response <- send transport req ;;
     _ <- raise_for_status response ;;
     data <- response_data response ;;
     match rm with
     | Some m => or_ValidationError (model_validate m data)
     | None => py_ret data
     end)
    (except_request_or_validation PyNone)
  = ([req], post_result rm (transport req)).
Proof.
  unfold send, post_result, payload.
  destruct (transport req) as [r|e|e]; [|reflexivity|now destruct e].
  cbn [py_bind]. unfold raise_for_status.
  destruct (error_status (status_code r)); [reflexivity|].
  cbn [py_ret py_bind]. rewrite response_data_body.
  destruct (body_of r) as [d|]; [|reflexivity].
  cbn [py_ret py_bind]. destruct rm as [m|]; cbn [validated]; [|reflexivity].
  destruct (model_validate m d); reflexivity.
Qed.

Lemma delete_after_call req :
  try_except
    (response <- send transport req ;;
     _ <- raise_for_status response ;;
     data <- response_data response ;;
     py_ret data)
    (except_request PyNone)
  = ([req], delete_result (transport req)).
Proof.
  unfold send, delete_result, payload.
  destruct (transport req) as [r|e|e]; [|reflexivity|now destruct e].
  cbn [py_bind]. unfold raise_for_status.
  destruct (error_status (status_code r)); [reflexivity|].
  cbn [py_ret py_bind]. rewrite response_data_body.
  destruct (body_of r) as [d|]; reflexivity.
Qed.

Lemma get_run self endpoint ep pp qp rm :
  result (resolve format_compound endpoint pp) = Return ep ->
  __get__ format_compound transport self endpoint pp qp rm
  = ([outgoing GET self ep (option_map dict qp) None],
     get_result rm (transport (outgoing GET self ep (option_map dict qp) None))).
Proof. intros H. rewrite (get_resolved _ _ _ _ _ _ H). apply get_after_call. Qed.

Lemma post_run self endpoint data rm :
  __post__ transport self endpoint data rm
  = ([outgoing POST self endpoint None (option_map model_dump data)],
     post_result rm (transport (outgoing POST self endpoint None
                                         (option_map model_dump data)))).
Proof. unfold __post__. apply post_after_call. Qed.

Lemma delete_run self endpoint ep pp qp :
  result (resolve format_compound endpoint pp) = Return ep ->
  __delete__ format_compound transport self endpoint pp qp
  = ([outgoing DELETE self ep (option_map dict qp) None],
     delete_result (transport (outgoing DELETE self ep (option_map dict qp) None))).
Proof. intros H. rewrite (delete_resolved _ _ _ _ _ H). apply delete_after_call. Qed.

Lemma transport_error_get rm t :
  transport_error t -> get_result rm t = Return (PyNone, PyNone).
Proof.
  destruct t as [r|e|e]; cbn; [|reflexivity|now destruct e].
  intros H. apply error_status_spec in H. now rewrite H.
Qed.

Lemma transport_error_post rm t :
  transport_error t -> post_result rm t = Return PyNone.
Proof.
  destruct t as [r|e|e]; cbn; [|reflexivity|now destruct e].
  intros H. apply error_status_spec in H. now rewrite H.
Qed.

Lemma transport_error_delete t :
  transport_error t -> delete_result t = Return PyNone.
Proof.
  destruct t as [r|e|e]; cbn; [|reflexivity|now destruct e].
  intros H. apply error_status_spec in H. now rewrite H.
Qed.

End VerbFacts.

(** ** Transport failures and error statuses *)

(** C1, as stated, fails: a status outside 2xx is not always an error for
    [raise_for_status]. On a 304 answer [__get__], [__post__] and
    [__delete__] hand back the status and the body, not the null
    sentinel. *)
Lemma status_304_is_not_a_failure :
  ~ is_2xx (status_code not_modified)
  /\ result (__get__ no_compound (respond_with not_modified) default_handler
                     "queue/get-news/by/hours" None None None)
     = Return (PyInt 304, PyStr "")
  /\ result (__post__ (respond_with not_modified) default_handler
                      "queue/get-news/by/hours" None None)
     = Return (PyStr "")
  /\ result (__delete__ no_compound (respond_with not_modified) default_handler
                        "queue/get-news/by/hours" None None)
     = Return (PyStr "").
Proof.
  split; [unfold is_2xx; cbn; lia|].
  repeat split; reflexivity.
Qed.

(** C1 (amended): for every verb method, once the request is sent, if the
    transport call raises a [RequestException] or the response status is 4xx
    or 5xx (the statuses on which [raise_for_status] raises), the exception
    is caught and the method returns its null sentinel: [(None, None)] for
    get, [None] for post and delete. *)
Theorem transport_error_gives_sentinel
    fc tr self endpoint ep pp qp data rm :
  result (resolve fc endpoint pp) = Return ep ->
  (transport_error (tr (outgoing GET self ep (option_map dict qp) None)) ->
   result (__get__ fc tr self endpoint pp qp rm) = Return (PyNone, PyNone))
  /\ (transport_error (tr (outgoing POST self endpoint None (option_map model_dump data))) ->
      result (__post__ tr self endpoint data rm) = Return PyNone)
  /\ (transport_error (tr (outgoing DELETE self ep (option_map dict qp) None)) ->
      result (__delete__ fc tr self endpoint pp qp) = Return PyNone).
Proof.
  intros Hres. repeat split; intros Herr.
  - rewrite (get_run _ _ _ _ _ _ _ _ Hres). cbn [result snd].
    now apply transport_error_get.
  - rewrite post_run. cbn [result snd]. now apply transport_error_post.
  - rewrite (delete_run _ _ _ _ _ _ _ Hres). cbn [result snd].
    now apply transport_error_delete.
Qed.

Lemma transport_error_gives_sentinel_witness :
  let tr := respond_with not_found in
  let pp := Some (DetailBySeed "s1") in
  result (resolve no_compound "all-news/detail-by-seed/{seed}" pp)
  = Return "all-news/detail-by-seed/s1"
  /\ result (__get__ no_compound tr default_handler "all-news/detail-by-seed/{seed}"
                     pp None (Some dict_model))
     = Return (PyNone, PyNone)
  /\ result (__post__ tr default_handler "all-news/detail-by-seed/{seed}"
                      None (Some dict_model))
     = Return PyNone
  /\ result (__delete__ no_compound tr default_handler "all-news/detail-by-seed/{seed}"
                        pp None)
     = Return PyNone.
Proof.
  intros tr pp.
  assert (Hres : result (resolve no_compound "all-news/detail-by-seed/{seed}" pp)
                 = Return "all-news/detail-by-seed/s1") by reflexivity.
  split; [exact Hres|].
  destruct (transport_error_gives_sentinel no_compound tr default_handler
              "all-news/detail-by-seed/{seed}" "all-news/detail-by-seed/s1"
              pp None None (Some dict_model) Hres) as (Hget & Hpost & Hdel).
  assert (Herr : forall req, transport_error (tr req))
    by (intros req; unfold tr, respond_with, transport_error, is_4xx_5xx; cbn; lia).
  split; [apply Hget | split; [apply Hpost | apply Hdel]]; apply Herr.
Defined.

(** ** Errors of the endpoint template *)



Example get_reraises_value_error :
  __get__ no_compound (checks_timeout (respond_with (ok_json (PyDict []) "{}")))
          (set_timeout default_handler 0) "queue/get-news/by/hours" None None None
  = ([outgoing GET (set_timeout default_handler 0) "queue/get-news/by/hours" None None],
     Raise (ValueError "timeout cannot be set to a value less than or equal to 0")).
Proof. reflexivity. Qed.

(** ** Validation failures *)

Lemma response_data_returns r d :
  result (response_data r) = Return d <-> body_of r = Some d.
Proof.
  rewrite response_data_body. destruct (body_of r) as [d'|]; cbn; split; congruence.
Qed.

(** C3: for [__get__] and [__post__] called with a response model, when the
    transport answers with a 2xx status and the parsed body is rejected by
    the model, the method returns its whole null sentinel, [(None, None)]
    for get and [None] for post. *)
Theorem invalid_body_gives_sentinel
    fc tr self endpoint ep pp qp data m r d :
  result (resolve fc endpoint pp) = Return ep ->
  is_2xx (status_code r) ->
  result (response_data r) = Return d ->
  model_validate m d = None ->
  (tr (outgoing GET self ep (option_map dict qp) None) = Responded r ->
   result (__get__ fc tr self endpoint pp qp (Some m)) = Return (PyNone, PyNone))
  /\ (tr (outgoing POST self endpoint None (option_map model_dump data)) = Responded r ->
      result (__post__ tr self endpoint data (Some m)) = Return PyNone).
Proof.
  intros Hres H2xx Hdata Hval.
  apply response_data_returns in Hdata.
  apply is_2xx_not_error, error_status_false in H2xx.
  split; intros Htr.
  - rewrite (get_run _ _ _ _ _ _ _ _ Hres). cbn [result snd].
    rewrite Htr. cbn [get_result post_result payload].
    now rewrite H2xx, Hdata; cbn [validated]; rewrite Hval.
  - rewrite post_run. cbn [result snd].
    rewrite Htr. cbn [get_result post_result payload].
    now rewrite H2xx, Hdata; cbn [validated]; rewrite Hval.
Qed.

Lemma invalid_body_gives_sentinel_witness :
  let r := ok_json (PyList [PyInt 1]) "[1]" in
  let tr := respond_with r in
  is_2xx (status_code r)
  /\ result (response_data r) = Return (PyList [PyInt 1])
  /\ model_validate dict_model (PyList [PyInt 1]) = None
  /\ result (__get__ no_compound tr default_handler "queue/get-news/by/hours"
                     None None (Some dict_model))
     = Return (PyNone, PyNone)
  /\ result (__post__ tr default_handler "queue/get-news/by/hours"
                      None (Some dict_model))
     = Return PyNone.
Proof.
  intros r tr.
  assert (H2xx : is_2xx (status_code r)) by (unfold is_2xx; cbn; lia).
  assert (Hdata : result (response_data r) = Return (PyList [PyInt 1])) by reflexivity.
  assert (Hval : model_validate dict_model (PyList [PyInt 1]) = None) by reflexivity.
  split; [exact H2xx|]. split; [exact Hdata|]. split; [exact Hval|].
  destruct (invalid_body_gives_sentinel no_compound tr default_handler
              "queue/get-news/by/hours" "queue/get-news/by/hours"
              None None None dict_model r (PyList [PyInt 1])
              eq_refl H2xx Hdata Hval) as (Hget & Hpost).
  split; [apply Hget | apply Hpost]; reflexivity.
Defined.

(** ** Content type *)




(** The test is an equality on the header value: with a parameter after the
    media type the body is handed on as text. *)
Example content_type_with_charset_is_text :
  let r := {| status_code := 200;
              content_type := Some "application/json; charset=utf-8";
              text := "{}"; json_body := Some (PyDict []) |} in
  result (__delete__ no_compound (respond_with r) default_handler
                     "queue/get-news/by/hours" None None)
  = Return (PyStr "{}").
Proof. reflexivity. Qed.

(** Under the JSON content type a body that does not decode is a failure
    like any other. *)
Example undecodable_json_is_a_failure :
  let r := {| status_code := 200; content_type := Some "application/json";
              text := "<html>"; json_body := None |} in
  result (__get__ no_compound (respond_with r) default_handler
                  "queue/get-news/by/hours" None None None)
  = Return (PyNone, PyNone).
Proof. reflexivity. Qed.

(** ** The fixed endpoints *)

Lemma append_empty_r (s : string) : s ++ "" = s.
Proof. induction s as [|c s IH]; cbn; [reflexivity | now rewrite IH]. Qed.

Lemma get_field_found (kwargs : gmap string atom) name v :
  positional_index name = None ->
  kwargs !! name = Some v ->
  get_field kwargs name = Return (py_str v).
Proof. intros Hd Hk. unfold get_field. now rewrite Hd, Hk. Qed.

Lemma format_detail_by_seed fc seed :
  format fc "all-news/detail-by-seed/{seed}" (model_dump (DetailBySeed seed))
  = Return ("all-news/detail-by-seed/" ++ seed).
Proof.
  unfold format, DetailBySeed. cbn [model_dump].
  cbn -[get_field].
  rewrite (get_field_found _ "seed" (AStr seed));
    [| reflexivity | apply lookup_singleton_eq].
  cbn. now rewrite append_empty_r.
Qed.


(** C5: for every seed string, [get_detail_by_seed seed] sends exactly one
    request, a GET whose endpoint is [all-news/detail-by-seed/<seed>] under
    the base URL, with no query parameters and no body. *)
Theorem get_detail_by_seed_request fc tr DetailBySeedResponse self seed :
  calls (get_detail_by_seed fc tr DetailBySeedResponse self seed)
  = [ {| req_verb := GET;
         req_url := base_url self ++ "/" ++ "all-news/detail-by-seed/" ++ seed;
         req_headers := headers self;
         req_params := None;
         req_json := None;
         req_timeout := timeout self |} ].
Proof.
  unfold get_detail_by_seed, __get_detail_by_seed__.
  rewrite (get_run fc tr self _ ("all-news/detail-by-seed/" ++ seed) _ None _).
  - cbn [py_bind]. destruct (get_result _ _) as [[s v]|e]; reflexivity.
  - cbn [resolve py_lift result snd]. apply format_detail_by_seed.
Qed.


Example delete_news_by_queue_url :
  map req_url (calls (delete_news_by_queue no_compound (respond_with not_found)
                                           default_handler "sport" 42))
  = ["http://0.0.0.0:8000//queue/delete-news/sport/42"].
Proof. reflexivity. Qed.

(** ** Headers *)

Lemma verb_calls_headers fc tr self endpoint pp qp data rm :
  Forall (fun req => req_headers req = headers self)
         (calls (__get__ fc tr self endpoint pp qp rm)
          ++ calls (__post__ tr self endpoint data rm)
          ++ calls (__delete__ fc tr self endpoint pp qp))%list.
Proof.
  rewrite post_run.
  destruct (result (resolve fc endpoint pp)) as [ep|e] eqn:Hres.
  - rewrite (get_run _ _ _ _ _ _ _ _ Hres), (delete_run _ _ _ _ _ _ _ Hres).
    cbn [calls fst app]. repeat constructor.
  - rewrite (get_unresolved _ _ _ _ _ _ _ _ Hres), (delete_unresolved _ _ _ _ _ _ _ Hres).
    cbn [calls fst app]. repeat constructor.
Qed.

(** C7: for every mapping [h] and every handler state, [set_headers h]
    merges [h] into the headers: a key of [h] gets the value [h] gives it,
    any other key keeps the value it had, so that the keys afterwards are
    those of [h] together with the earlier ones; the base URL and the
    timeout are unchanged; and every request sent afterwards carries the
    merged headers: the one request of [__post__], and the one request of
    [__get__] and of [__delete__] whenever their endpoint resolves (they send
    none when it does not). *)
Theorem set_headers_merges self h :
  (forall k, headers (set_headers self h) !! k
             = match h !! k with
               | Some v => Some v
               | None => headers self !! k
               end)
  /\ dom (headers (set_headers self h)) = dom h ∪ dom (headers self)
  /\ base_url (set_headers self h) = base_url self
  /\ timeout (set_headers self h) = timeout self
  /\ (forall fc tr endpoint pp qp data rm,
        Forall (fun req => req_headers req = h ∪ headers self)
               (calls (__get__ fc tr (set_headers self h) endpoint pp qp rm)
                ++ calls (__post__ tr (set_headers self h) endpoint data rm)
                ++ calls (__delete__ fc tr (set_headers self h) endpoint pp qp))%list
        /\ map req_headers (calls (__post__ tr (set_headers self h) endpoint data rm))
           = [h ∪ headers self]
        /\ match result (resolve fc endpoint pp) with
           | Return _ =>
               map req_headers
                   (calls (__get__ fc tr (set_headers self h) endpoint pp qp rm))
               = [h ∪ headers self]
               /\ map req_headers
                      (calls (__delete__ fc tr (set_headers self h) endpoint pp qp))
                  = [h ∪ headers self]
           | Raise _ =>
               calls (__get__ fc tr (set_headers self h) endpoint pp qp rm) = []
               /\ calls (__delete__ fc tr (set_headers self h) endpoint pp qp) = []
           end).
Proof.
  split; [|split; [|split; [|split]]].
  - intros k. cbn [set_headers headers]. rewrite lookup_union.
    destruct (h !! k), (headers self !! k); reflexivity.
  - cbn [set_headers headers]. apply dom_union_L.
  - reflexivity.
  - reflexivity.
  - intros fc tr endpoint pp qp data rm. split; [|split].
    + apply (verb_calls_headers fc tr (set_headers self h)).
    + rewrite post_run. reflexivity.
    + destruct (result (resolve fc endpoint pp)) as [ep|e] eqn:Hres.
      * now rewrite (get_run _ _ _ _ _ _ _ _ Hres), (delete_run _ _ _ _ _ _ _ Hres).
      * now rewrite (get_unresolved _ _ _ _ _ _ _ _ Hres),
          (delete_unresolved _ _ _ _ _ _ _ Hres).
Qed.

Example set_headers_token :
  let self := set_headers (set_headers default_handler {[ "Accept" := "text/plain" ]})
                          {[ "X-Token" := "abc" ]} in
  headers self !! "X-Token" = Some "abc"
  /\ headers self !! "Accept" = Some "text/plain".
Proof. split; reflexivity. Qed.

(** ** Result shapes *)



(** ** The convenience methods *)

Lemma unwrap_second (m : py (pyval * pyval)) (l : list request) (o : outcome (pyval * pyval)) :
  m = (l, o) ->
  (r <- m ;; py_ret (item1 r))
  = (l, match o with
        | Return (_, p) => Return p
        | Raise e => Raise e
        end).
Proof.
  intros ->. destruct o as [[s p]|e]; cbn; [|reflexivity].
  now rewrite app_nil_r.
Qed.



Example get_detail_by_seed_found :
  result (get_detail_by_seed no_compound
            (respond_with (ok_json (PyDict [("seed", PyStr "seed123"); ("title", PyStr "X")])
                                   "{}"))
            dict_model default_handler "seed123")
  = Return (PyModel "Model" [("seed", PyStr "seed123"); ("title", PyStr "X")]).
Proof. reflexivity. Qed.

Example get_detail_by_seed_not_found :
  result (get_detail_by_seed no_compound (respond_with not_found)
            dict_model default_handler "seed123")
  = Return PyNone.
Proof. reflexivity. Qed.

(** ** The two shapes of a GET result *)



(** ** Templates of text and bare placeholders *)

Lemma append_assoc (a b c : string) : (a ++ b) ++ c = a ++ b ++ c.
Proof. induction a as [|x a IH]; cbn; [reflexivity | now rewrite IH]. Qed.

Lemma is_brace_false c :
  is_brace c = false -> (c =? "{")%char = false /\ (c =? "}")%char = false.
Proof. unfold is_brace. now intros H%orb_false_iff. Qed.

Lemma outcome_bind_assoc {A B C} (o : outcome A) (f : A -> outcome B) (g : B -> outcome C) :
  outcome_bind (outcome_bind o f) g = outcome_bind o (fun a => outcome_bind (f a) g).
Proof. now destruct o. Qed.

Lemma outcome_bind_ext {A B} (o : outcome A) (f g : A -> outcome B) :
  (forall a, f a = g a) -> outcome_bind o f = outcome_bind o g.
Proof. intros H. destruct o; cbn; [apply H | reflexivity]. Qed.

Section TemplateFacts.

Variable format_compound : string -> string -> gmap string atom -> outcome string.

(** Text without braces is copied. *)
Lemma format_from_text kwargs s t :
  brace_free s = true ->
  format_from format_compound kwargs (s ++ t) None
  = outcome_bind (format_from format_compound kwargs t None) (fun r => Return (s ++ r)).
Proof.
  induction s as [|c s IH]; intros Hs.
  - cbn. now destruct (format_from _ _ t None).
  - cbn [brace_free] in Hs. apply andb_true_iff in Hs as [Hc Hs].
    apply negb_true_iff, is_brace_false in Hc as [Ho Hc].
    cbn [append format_from]. rewrite Ho, Hc, (IH Hs), outcome_bind_assoc.
    reflexivity.
Qed.

(** Inside the braces, a bare name is read up to the closing brace and
    looked up. *)
Lemma format_from_name kwargs acc name t :
  bare_name name = true ->
  format_from format_compound kwargs (name ++ String "}" t) (Some acc)
  = outcome_bind (get_field kwargs (acc ++ name)) (fun v =>
    outcome_bind (format_from format_compound kwargs t None) (fun r =>
    Return (v ++ r))).
Proof.
  revert acc. induction name as [|c name IH]; intros acc Hn.
  - cbn. now rewrite append_empty_r.
  - cbn [bare_name] in Hn. apply andb_true_iff in Hn as [Hc Hn].
    apply andb_true_iff in Hc as [Hb Hc].
    apply negb_true_iff, is_brace_false in Hb as [Ho Hcl].
    apply negb_true_iff in Hc.
    cbn [append format_from]. rewrite Ho, Hcl, Hc, (IH _ Hn), append_assoc.
    reflexivity.
Qed.

Lemma format_from_open kwargs name t :
  bare_name name = true ->
  format_from format_compound kwargs (String "{" (name ++ String "}" t)) None
  = format_from format_compound kwargs (name ++ String "}" t) (Some "").
Proof.
  intros Hn. destruct name as [|c name].
  - reflexivity.
  - cbn [bare_name] in Hn. apply andb_true_iff in Hn as [Hc _].
    apply andb_true_iff in Hc as [Hb _].
    apply negb_true_iff, is_brace_false in Hb as [Ho _].
    cbn [append]. cbn [format_from]. cbn. now rewrite Ho.
Qed.

(** On such a template [str.format] is the substitution of the
    placeholders. *)
Lemma format_template kwargs segs :
  forallb segment_ok segs = true ->
  format format_compound (template_of segs) kwargs = substitute kwargs segs.
Proof.
  unfold format. induction segs as [|[s|name] segs IH]; intros Hok.
  - reflexivity.
  - cbn [forallb segment_ok] in Hok. apply andb_true_iff in Hok as [Hs Hok].
    cbn [template_of substitute]. now rewrite (format_from_text _ _ _ Hs), (IH Hok).
  - cbn [forallb segment_ok] in Hok. apply andb_true_iff in Hok as [Hn Hok].
    apply andb_true_iff in Hn as [Hn _].
    cbn [template_of substitute].
    now rewrite (format_from_open _ _ _ Hn), (format_from_name _ _ _ _ Hn), (IH Hok).
Qed.

Lemma format_brace_free kwargs s :
  brace_free s = true -> format format_compound s kwargs = Return s.
Proof.
  intros Hs. unfold format.
  rewrite <- (append_empty_r s) at 1. rewrite (format_from_text _ _ _ Hs).
  cbn. now rewrite append_empty_r.
Qed.

End TemplateFacts.

Example positional_index_cases :
  positional_index "" = Some (Return 0%Z)
  /\ positional_index "0" = Some (Return 0%Z)
  /\ positional_index "000000000000000000000000000001" = Some (Return 1%Z)
  /\ positional_index "9223372036854775807" = Some (Return 9223372036854775807%Z)
  /\ positional_index "9223372036854775808"
     = Some (Raise (ValueError "Too many decimal digits in format string"))
  /\ positional_index "99999999999999999999x"
     = Some (Raise (ValueError "Too many decimal digits in format string"))
  /\ positional_index "seed" = None
  /\ positional_index "1a" = None
  /\ positional_index "-1" = None.
Proof. repeat split. Qed.

Lemma substitute_stops kwargs pre name post e :
  returns (substitute kwargs pre) ->
  get_field kwargs name = Raise e ->
  substitute kwargs (pre ++ Field name :: post) = Raise e.
Proof.
  intros Hpre Hf. induction pre as [|[s|n] pre IH]; cbn [app substitute].
  - now rewrite Hf.
  - destruct Hpre as [a Ha]. cbn [substitute] in Ha.
    destruct (substitute kwargs pre) as [r|e'] eqn:Hr; [|discriminate].
    rewrite IH by (now eexists). reflexivity.
  - destruct Hpre as [a Ha]. cbn [substitute] in Ha.
    destruct (get_field kwargs n) as [v|e']; [|discriminate]. cbn in Ha |- *.
    destruct (substitute kwargs pre) as [r|e'] eqn:Hr; [|discriminate].
    rewrite IH by (now eexists). reflexivity.
Qed.

Lemma get_field_weaken (kwargs kwargs' : gmap string atom) name v :
  kwargs ⊆ kwargs' ->
  get_field kwargs name = Return v -> get_field kwargs' name = Return v.
Proof.
  unfold get_field. intros Hsub.
  destruct (positional_index name) as [[i|e]|]; [discriminate|discriminate|].
  destruct (kwargs !! name) as [a|] eqn:Hk; [|discriminate].
  now rewrite (lookup_weaken _ _ _ _ Hk Hsub).
Qed.

Lemma substitute_weaken (kwargs kwargs' : gmap string atom) segs ep :
  kwargs ⊆ kwargs' ->
  substitute kwargs segs = Return ep -> substitute kwargs' segs = Return ep.
Proof.
  intros Hsub. revert ep. induction segs as [|[s|n] segs IH]; intros ep; cbn [substitute].
  - auto.
  - destruct (substitute kwargs segs) as [r|e]; [|discriminate].
    now rewrite (IH r eq_refl).
  - destruct (get_field kwargs n) as [v|e] eqn:Hf; [|discriminate].
    rewrite (get_field_weaken _ _ _ _ Hsub Hf). cbn.
    destruct (substitute kwargs segs) as [r|e]; [|discriminate].
    now rewrite (IH r eq_refl).
Qed.

Lemma resolve_template fc segs p :
  forallb segment_ok segs = true ->
  result (resolve fc (template_of segs) (Some p)) = substitute (model_dump p) segs.
Proof. intros Hok. cbn. now apply format_template. Qed.

(** X1: for an endpoint template made of brace-free text and bare
    placeholders, [__get__] and [__delete__] called with a path-parameter
    object replace each placeholder, left to right, by the [str] of the field
    of that name and send one request to the resulting endpoint; when a
    placeholder cannot be looked up, the lookup error is raised and nothing
    is sent. *)
Theorem template_substitution fc tr self segs p qp rm :
  forallb segment_ok segs = true ->
  match substitute (model_dump p) segs with
  | Return ep =>
      calls (__get__ fc tr self (template_of segs) (Some p) qp rm)
      = [outgoing GET self ep (option_map dict qp) None]
      /\ calls (__delete__ fc tr self (template_of segs) (Some p) qp)
         = [outgoing DELETE self ep (option_map dict qp) None]
  | Raise e =>
      __get__ fc tr self (template_of segs) (Some p) qp rm = ([], Raise e)
      /\ __delete__ fc tr self (template_of segs) (Some p) qp = ([], Raise e)
  end.
Proof.
  intros Hok. pose proof (resolve_template fc segs p Hok) as Hres.
  destruct (substitute (model_dump p) segs) as [ep|e].
  - now rewrite (get_run _ _ _ _ _ _ _ _ Hres), (delete_run _ _ _ _ _ _ _ Hres).
  - now rewrite (get_unresolved _ _ _ _ _ _ _ _ Hres), (delete_unresolved _ _ _ _ _ _ _ Hres).
Qed.

Lemma template_substitution_witness :
  let segs := [Lit "queue/delete-news/"; Field "channel"; Lit "/"; Field "id_post"] in
  template_of segs = "queue/delete-news/{channel}/{id_post}"
  /\ calls (__get__ no_compound (respond_with not_found) default_handler
                    "queue/delete-news/{channel}/{id_post}"
                    (Some (DeletePostByQueue "sport" 42)) None None)
     = [outgoing GET default_handler "queue/delete-news/sport/42" None None]
  /\ __delete__ no_compound (respond_with not_found) default_handler
                "queue/delete-news/{channel}/{id_post}" (Some (DetailBySeed "s")) None
     = ([], Raise (KeyError "channel")).
Proof.
  intros segs. split; [reflexivity|]. split.
  - exact (proj1 (template_substitution no_compound (respond_with not_found)
                    default_handler segs (DeletePostByQueue "sport" 42) None None
                    eq_refl)).
  - exact (proj2 (template_substitution no_compound (respond_with not_found)
                    default_handler segs (DetailBySeed "s") None None
                    eq_refl)).
Defined.

(** X2: in such a template, when the placeholders before [name] can be
    looked up: if [name] is not an index (it is neither empty nor a number)
    and not a field of the path-parameter object, [__get__] and [__delete__]
    raise [KeyError name] and send nothing; if [name] is an index (empty, or
    a number within the index range) they raise [IndexError], there being no
    positional argument. *)
Theorem unresolvable_placeholder_raises fc tr self pre name post p qp rm :
  forallb segment_ok (pre ++ Field name :: post) = true ->
  returns (substitute (model_dump p) pre) ->
  let endpoint := template_of (pre ++ Field name :: post) in
  (positional_index name = None -> model_dump p !! name = None ->
   __get__ fc tr self endpoint (Some p) qp rm = ([], Raise (KeyError name))
   /\ __delete__ fc tr self endpoint (Some p) qp = ([], Raise (KeyError name)))
  /\ (forall i, positional_index name = Some (Return i) ->
      __get__ fc tr self endpoint (Some p) qp rm = ([], Raise IndexError)
      /\ __delete__ fc tr self endpoint (Some p) qp = ([], Raise IndexError)).
Proof.
  intros Hok Hpre endpoint.
  assert (Hraise : forall e, get_field (model_dump p) name = Raise e ->
            __get__ fc tr self endpoint (Some p) qp rm = ([], Raise e)
            /\ __delete__ fc tr self endpoint (Some p) qp = ([], Raise e)).
  { intros e Hf.
    pose proof (resolve_template fc _ p Hok) as Hres.
    rewrite (substitute_stops _ _ _ post _ Hpre Hf) in Hres.
    split; [now apply get_unresolved | now apply delete_unresolved]. }
  split.
  - intros Hd Hk. apply Hraise. unfold get_field. now rewrite Hd, Hk.
  - intros i Hd. apply Hraise. unfold get_field. now rewrite Hd.
Qed.

Lemma unresolvable_placeholder_raises_witness :
  (__get__ no_compound (respond_with not_found) default_handler
           "all-news/{section}/{seed}" (Some (DetailBySeed "s1")) None None
   = ([], Raise (KeyError "section")))
  /\ (__delete__ no_compound (respond_with not_found) default_handler
                 "all-news/{seed}/{0}" (Some (DetailBySeed "s1")) None
      = ([], Raise IndexError)).
Proof.
  split.
  - exact (proj1 (proj1 (unresolvable_placeholder_raises no_compound
             (respond_with not_found) default_handler
             [Lit "all-news/"] "section" [Lit "/"; Field "seed"]
             (DetailBySeed "s1") None None eq_refl (ex_intro _ _ eq_refl))
             eq_refl eq_refl)).
  - exact (proj2 (proj2 (unresolvable_placeholder_raises no_compound
             (respond_with not_found) default_handler
             [Lit "all-news/"; Field "seed"; Lit "/"] "0" []
             (DetailBySeed "s1") None None eq_refl (ex_intro _ _ eq_refl))
             0%Z eq_refl)).
Defined.

(** X3: fields of the path-parameter object that the template does not
    mention are ignored: when the template resolves against an object, it
    resolves the same way against any object that has the same fields and
    more, and the calls of [__get__] and [__delete__] are the same. *)
Theorem unmentioned_fields_ignored fc tr self segs p p' qp rm ep :
  forallb segment_ok segs = true ->
  model_dump p ⊆ model_dump p' ->
  substitute (model_dump p) segs = Return ep ->
  __get__ fc tr self (template_of segs) (Some p') qp rm
  = __get__ fc tr self (template_of segs) (Some p) qp rm
  /\ __delete__ fc tr self (template_of segs) (Some p') qp
     = __delete__ fc tr self (template_of segs) (Some p) qp.
Proof.
  intros Hok Hsub Hep.
  pose proof (resolve_template fc segs p Hok) as Hres. rewrite Hep in Hres.
  pose proof (resolve_template fc segs p' Hok) as Hres'.
  rewrite (substitute_weaken _ _ _ _ Hsub Hep) in Hres'.
  now rewrite (get_run _ _ _ _ _ _ _ _ Hres), (get_run _ _ _ _ _ _ _ _ Hres'),
    (delete_run _ _ _ _ _ _ _ Hres), (delete_run _ _ _ _ _ _ _ Hres').
Qed.

Lemma unmentioned_fields_ignored_witness :
  let extended := {| model_dump := <[ "lang" := AStr "en" ]> (model_dump (DetailBySeed "s1")) |} in
  model_dump (DetailBySeed "s1") ⊆ model_dump extended
  /\ __get__ no_compound (respond_with not_found) default_handler
             "all-news/detail-by-seed/{seed}" (Some extended) None None
     = __get__ no_compound (respond_with not_found) default_handler
               "all-news/detail-by-seed/{seed}" (Some (DetailBySeed "s1")) None None.
Proof.
  intros extended.
  assert (Hsub : model_dump (DetailBySeed "s1") ⊆ model_dump extended)
    by (apply insert_subseteq; reflexivity).
  split; [exact Hsub|].
  exact (proj1 (unmentioned_fields_ignored no_compound (respond_with not_found)
                  default_handler [Lit "all-news/detail-by-seed/"; Field "seed"]
                  (DetailBySeed "s1") extended None None
                  "all-news/detail-by-seed/s1" eq_refl Hsub eq_refl)).
Defined.

(** X4: the endpoint is a template only when a path-parameter object is
    given. Without one, [__get__] and [__delete__] send the endpoint as it
    is, braces included; with one, an endpoint that has no brace is sent
    unchanged, so that the call is the same as without the object. *)
Theorem path_params_guard fc tr self endpoint p qp rm :
  calls (__get__ fc tr self endpoint None qp rm)
  = [outgoing GET self endpoint (option_map dict qp) None]
  /\ calls (__delete__ fc tr self endpoint None qp)
     = [outgoing DELETE self endpoint (option_map dict qp) None]
  /\ (brace_free endpoint = true ->
      __get__ fc tr self endpoint (Some p) qp rm = __get__ fc tr self endpoint None qp rm
      /\ __delete__ fc tr self endpoint (Some p) qp = __delete__ fc tr self endpoint None qp).
Proof.
  rewrite (get_run fc tr self endpoint endpoint None qp rm eq_refl),
    (delete_run fc tr self endpoint endpoint None qp eq_refl).
  split; [reflexivity|]. split; [reflexivity|]. intros Hb.
  assert (Hres : result (resolve fc endpoint (Some p)) = Return endpoint)
    by (cbn; now apply format_brace_free).
  now rewrite (get_run _ _ _ _ _ _ _ _ Hres), (delete_run _ _ _ _ _ _ _ Hres).
Qed.

Lemma path_params_guard_witness :
  map req_url (calls (__get__ no_compound (respond_with not_found) default_handler
                              "all-news/detail-by-seed/{seed}" None None None))
  = ["http://0.0.0.0:8000//all-news/detail-by-seed/{seed}"]
  /\ __get__ no_compound (respond_with not_found) default_handler
             "queue/get-news/by/hours" (Some (DetailBySeed "s1")) None None
     = __get__ no_compound (respond_with not_found) default_handler
               "queue/get-news/by/hours" None None None.
Proof.
  split.
  - pose proof (path_params_guard no_compound (respond_with not_found) default_handler
                  "all-news/detail-by-seed/{seed}" (DetailBySeed "s1") None None)
      as (Hget & _).
    now rewrite Hget.
  - pose proof (path_params_guard no_compound (respond_with not_found) default_handler
                  "queue/get-news/by/hours" (DetailBySeed "s1") None None)
      as (_ & _ & Hsame).
    exact (proj1 (Hsame eq_refl)).
Defined.

(** ** The requests that are sent *)

(** X5: a call of a verb method sends at most one request, whatever the
    transport answers: there is no retry. [__post__] always sends one, to
    the endpoint as given (it is not a template there), with the dumped data
    as JSON body and no query parameters; [__get__] and [__delete__] send
    one when the endpoint resolves, with the dumped query parameters and no
    body, and none when it does not. The path parameters appear in the URL
    only. *)
Theorem one_request_per_call fc tr self endpoint pp qp data rm :
  calls (__post__ tr self endpoint data rm)
  = [ {| req_verb := POST;
         req_url := base_url self ++ "/" ++ endpoint;
         req_headers := headers self;
         req_params := None;
         req_json := option_map model_dump data;
         req_timeout := timeout self |} ]
  /\ match result (resolve fc endpoint pp) with
     | Return ep =>
         calls (__get__ fc tr self endpoint pp qp rm)
         = [ {| req_verb := GET;
                req_url := base_url self ++ "/" ++ ep;
                req_headers := headers self;
                req_params := option_map model_dump qp;
                req_json := None;
                req_timeout := timeout self |} ]
         /\ calls (__delete__ fc tr self endpoint pp qp)
            = [ {| req_verb := DELETE;
                   req_url := base_url self ++ "/" ++ ep;
                   req_headers := headers self;
                   req_params := option_map model_dump qp;
                   req_json := None;
                   req_timeout := timeout self |} ]
     | Raise _ =>
         calls (__get__ fc tr self endpoint pp qp rm) = []
         /\ calls (__delete__ fc tr self endpoint pp qp) = []
     end.
Proof.
  rewrite post_run. split; [reflexivity|].
  destruct (result (resolve fc endpoint pp)) as [ep|e] eqn:Hres.
  - now rewrite (get_run _ _ _ _ _ _ _ _ Hres), (delete_run _ _ _ _ _ _ _ Hres).
  - now rewrite (get_unresolved _ _ _ _ _ _ _ _ Hres), (delete_unresolved _ _ _ _ _ _ _ Hres).
Qed.

(** X6: the fixed list endpoints. [get_last_news_queue] and
    [get_last_news_send], like the methods they unwrap, send one GET, to
    [queue/get-news/by/hours] and to [send-news/get-news/by/hours] under the
    base URL, with no query parameters and no body. *)
Theorem list_endpoints_requests fc tr PostSendNewsList PostQueueList self :
  let get_to endpoint :=
    [ {| req_verb := GET;
         req_url := base_url self ++ "/" ++ endpoint;
         req_headers := headers self;
         req_params := None;
         req_json := None;
         req_timeout := timeout self |} ] in
  calls (__get_last_queue__ fc tr PostQueueList self) = get_to "queue/get-news/by/hours"
  /\ calls (get_last_news_queue fc tr PostQueueList self) = get_to "queue/get-news/by/hours"
  /\ calls (__get_last_send_news__ fc tr PostSendNewsList self)
     = get_to "send-news/get-news/by/hours"
  /\ calls (get_last_news_send fc tr PostSendNewsList self)
     = get_to "send-news/get-news/by/hours".
Proof.
  intros get_to. unfold get_last_news_queue, get_last_news_send.
  pose proof (get_run fc tr self "queue/get-news/by/hours" _ None None
                (Some PostQueueList) eq_refl) as Hq.
  pose proof (get_run fc tr self "send-news/get-news/by/hours" _ None None
                (Some PostSendNewsList) eq_refl) as Hs.
  fold (__get_last_queue__ fc tr PostQueueList self) in Hq.
  fold (__get_last_send_news__ fc tr PostSendNewsList self) in Hs.
  rewrite (unwrap_second _ _ _ Hq), (unwrap_second _ _ _ Hs), Hq, Hs.
  repeat split.
Qed.


Example delete_news_by_queue_reraises :
  result (delete_news_by_queue no_compound (checks_timeout (respond_with not_found))
                               (set_timeout default_handler 0) "sport" 42)
  = Raise (ValueError "timeout cannot be set to a value less than or equal to 0").
Proof. reflexivity. Qed.

(** ** The configuration *)

Lemma verb_calls_timeout fc tr self endpoint pp qp data rm :
  Forall (fun req => req_timeout req = timeout self)
         (calls (__get__ fc tr self endpoint pp qp rm)
          ++ calls (__post__ tr self endpoint data rm)
          ++ calls (__delete__ fc tr self endpoint pp qp))%list.
Proof.
  rewrite post_run.
  destruct (result (resolve fc endpoint pp)) as [ep|e] eqn:Hres.
  - rewrite (get_run _ _ _ _ _ _ _ _ Hres), (delete_run _ _ _ _ _ _ _ Hres).
    cbn [calls fst app]. repeat constructor.
  - rewrite (get_unresolved _ _ _ _ _ _ _ _ Hres), (delete_unresolved _ _ _ _ _ _ _ Hres).
    cbn [calls fst app]. repeat constructor.
Qed.

Lemma handler_eq (a b : RequestHandler) :
  base_url a = base_url b -> headers a = headers b -> timeout a = timeout b -> a = b.
Proof. destruct a, b. cbn. now intros -> -> ->. Qed.

(** X8: [set_timeout t] replaces the timeout and leaves the base URL and the
    headers as they are; of two [set_timeout] in a row the last one wins; and
    every request sent afterwards is given the timeout [t]: the one request
    of [__post__], and the one request of [__get__] and of [__delete__]
    whenever their endpoint resolves (they send none when it does not). *)
Theorem set_timeout_replaces self t :
  timeout (set_timeout self t) = t
  /\ base_url (set_timeout self t) = base_url self
  /\ headers (set_timeout self t) = headers self
  /\ (forall t', set_timeout (set_timeout self t') t = set_timeout self t)
  /\ (forall fc tr endpoint pp qp data rm,
        Forall (fun req => req_timeout req = t)
               (calls (__get__ fc tr (set_timeout self t) endpoint pp qp rm)
                ++ calls (__post__ tr (set_timeout self t) endpoint data rm)
                ++ calls (__delete__ fc tr (set_timeout self t) endpoint pp qp))%list
        /\ map req_timeout (calls (__post__ tr (set_timeout self t) endpoint data rm)) = [t]
        /\ match result (resolve fc endpoint pp) with
           | Return _ =>
               map req_timeout
                   (calls (__get__ fc tr (set_timeout self t) endpoint pp qp rm)) = [t]
               /\ map req_timeout
                      (calls (__delete__ fc tr (set_timeout self t) endpoint pp qp)) = [t]
           | Raise _ =>
               calls (__get__ fc tr (set_timeout self t) endpoint pp qp rm) = []
               /\ calls (__delete__ fc tr (set_timeout self t) endpoint pp qp) = []
           end).
Proof.
  split; [reflexivity|]. split; [reflexivity|]. split; [reflexivity|].
  split; [reflexivity|].
  intros fc tr endpoint pp qp data rm. split; [|split].
  - apply (verb_calls_timeout fc tr (set_timeout self t)).
  - now rewrite post_run.
  - destruct (result (resolve fc endpoint pp)) as [ep|e] eqn:Hres.
    + now rewrite (get_run _ _ _ _ _ _ _ _ Hres), (delete_run _ _ _ _ _ _ _ Hres).
    + now rewrite (get_unresolved _ _ _ _ _ _ _ _ Hres),
        (delete_unresolved _ _ _ _ _ _ _ Hres).
Qed.

(** X9: how the configuration calls compose. Two [set_headers] in a row are
    one, with the later mapping merged over the earlier; [set_headers] with
    the same mapping twice, or with the empty mapping, changes nothing more;
    [set_headers] and [set_timeout] commute; and setting headers on a handler
    built without any gives the handler built with them. *)
Theorem configuration_composes self h1 h2 t b :
  set_headers (set_headers self h1) h2 = set_headers self (h2 ∪ h1)
  /\ set_headers (set_headers self h1) h1 = set_headers self h1
  /\ set_headers self ∅ = self
  /\ set_timeout (set_headers self h1) t = set_headers (set_timeout self t) h1
  /\ set_headers (__init__ b None t) h1 = __init__ b (Some h1) t.
Proof.
  split; [|split; [|split; [|split]]]; apply handler_eq; cbn; try reflexivity.
  - now rewrite (assoc_L (∪)).
  - now rewrite (assoc_L (∪)), (idemp_L (∪)).
  - now rewrite (left_id_L ∅ (∪)).
  - now rewrite (right_id_L ∅ (∪)).
Qed.

(** X10: a URL is the base URL, a slash and the endpoint, whatever the base
    URL ends with: when the base URL already ends with a slash, as the
    default one does, the URL that is requested has two slashes before the
    endpoint. *)
Theorem base_url_trailing_slash fc tr self b endpoint qp data rm :
  base_url self = b ++ "/" ->
  map req_url (calls (__post__ tr self endpoint data rm)) = [b ++ "//" ++ endpoint]
  /\ map req_url (calls (__get__ fc tr self endpoint None qp rm)) = [b ++ "//" ++ endpoint]
  /\ map req_url (calls (__delete__ fc tr self endpoint None qp)) = [b ++ "//" ++ endpoint].
Proof.
  intros Hb.
  rewrite post_run, (get_run fc tr self endpoint endpoint None qp rm eq_refl),
    (delete_run fc tr self endpoint endpoint None qp eq_refl).
  cbn [calls fst map outgoing req_url]. rewrite Hb, append_assoc.
  repeat split.
Qed.

Lemma base_url_trailing_slash_witness :
  base_url default_handler = "http://0.0.0.0:8000" ++ "/"
  /\ map req_url (calls (__post__ (respond_with not_found) default_handler
                                  "queue/get-news/by/hours" None None))
     = ["http://0.0.0.0:8000//queue/get-news/by/hours"].
Proof.
  split; [reflexivity|].
  exact (proj1 (base_url_trailing_slash no_compound (respond_with not_found)
                  default_handler "http://0.0.0.0:8000" "queue/get-news/by/hours"
                  None None None eq_refl)).
Defined.

(** ** A null body *)

(** X11: a successful answer whose JSON body is [null] cannot be told from a
    failure through [__post__] or [__delete__], which return [None] in both
    cases; through [__get__] it can, the status being returned beside the
    [None]. *)
Theorem null_body_is_ambiguous fc tr self endpoint ep pp qp data r :
  result (resolve fc endpoint pp) = Return ep ->
  ~ is_4xx_5xx (status_code r) ->
  content_type r = Some "application/json" ->
  json_body r = Some PyNone ->
  let failing := fun _ : request => Failed ConnectionError in
  (tr (outgoing POST self endpoint None (option_map model_dump data)) = Responded r ->
   result (__post__ tr self endpoint data None) = Return PyNone
   /\ result (__post__ failing self endpoint data None) = Return PyNone)
  /\ (tr (outgoing DELETE self ep (option_map dict qp) None) = Responded r ->
      result (__delete__ fc tr self endpoint pp qp) = Return PyNone
      /\ result (__delete__ fc failing self endpoint pp qp) = Return PyNone)
  /\ (tr (outgoing GET self ep (option_map dict qp) None) = Responded r ->
      result (__get__ fc tr self endpoint pp qp None)
      = Return (PyInt (status_code r), PyNone)
      /\ result (__get__ fc failing self endpoint pp qp None) = Return (PyNone, PyNone)).
Proof.
  intros Hres Hst Hct Hj failing.
  apply error_status_false in Hst.
  assert (Hbody : body_of r = Some PyNone)
    by (unfold body_of; now rewrite bool_decide_eq_true_2).
  rewrite !post_run, !(get_run _ _ _ _ _ _ _ _ Hres), !(delete_run _ _ _ _ _ _ _ Hres).
  cbn [result snd].
  split; [|split]; intros Htr; rewrite Htr;
    cbn [get_result post_result delete_result payload];
    rewrite Hst, Hbody; split; reflexivity.
Qed.

Lemma null_body_is_ambiguous_witness :
  let r := ok_json PyNone "null" in
  result (__post__ (respond_with r) default_handler "queue/get-news/by/hours" None None)
  = Return PyNone
  /\ result (__get__ no_compound (respond_with r) default_handler
                     "queue/get-news/by/hours" None None None)
     = Return (PyInt 200, PyNone).
Proof.
  intros r.
  assert (Hst : ~ is_4xx_5xx (status_code r)) by (unfold is_4xx_5xx; cbn; lia).
  destruct (null_body_is_ambiguous no_compound (respond_with r) default_handler
              "queue/get-news/by/hours" "queue/get-news/by/hours"
              None None None r eq_refl Hst eq_refl eq_refl) as (Hpost & _ & Hget).
  split; [exact (proj1 (Hpost eq_refl)) | exact (proj1 (Hget eq_refl))].
Defined.
